(** * Loss functions of delta/utils/loss/loss_utils.py

    A shallow embedding of the five loss functions of the module
    ([cross_entropy], [ctc_lambda_loss], [crf_log_likelihood],
    [mask_sequence_loss], [arcface_loss]) and of the TensorFlow 1.x
    operations they are composed of.

    Conventions of the embedding:
    - a tensor is its run-time value: a shape and the row-major list of its
      elements; the dtype is the element type ([Z] for int32/int64, [R] for
      float32, [bool] for bool);
    - the loss functions are modelled in exact arithmetic: float32 is
      idealised by the real numbers, without rounding, overflow or NaN;
      where a statement depends on those, the graph of [arcface_loss] is
      evaluated in IEEE 754 binary32 ([arcface_loss_float32]);
    - Python exceptions are the [Raise] results of [Result];
    - the state of the default graph is explicit ([VarStore]): the
      variables, the reuse flag and the collection LOSSES;
    - the operators whose numerical kernels live inside TensorFlow (softmax
      cross-entropy, CTC, linear-chain CRF, sequence loss, the Xavier
      initialiser) are the fields of the class [TensorFlow]; what they
      reject before running the kernel are the fields of the class
      [TensorFlowChecks]. *)

From Stdlib Require Import Reals Lra Lia ZArith List Bool SpecFloat.
From stdpp Require Import base strings gmap.
Import ListNotations.

Open Scope R_scope.

(** ** Tensors *)

Record Tensor (A : Type) := mkTensor {
  shape : list nat;
  data : list A
}.
Arguments mkTensor {A} shape data.
Arguments shape {A} t.
Arguments data {A} t.

(** A tensor whose dtype is only known at run time (Python is dynamically
    typed: [weights] may be a float, an int or a bool tensor). *)
Inductive AnyTensor :=
| FloatT (t : Tensor R)
| IntT (t : Tensor Z)
| BoolT (t : Tensor bool).

(** Number of elements a shape announces. *)
Definition numel (sh : list nat) : nat := fold_right Nat.mul 1%nat sh.


(** [tf.rank] *)
Definition tf_rank {A} (t : Tensor A) : nat := length (shape t).

(** [tf.shape(t)[-1]] *)
Definition last_dim {A} (t : Tensor A) : nat := List.last (shape t) 0%nat.

(** [tf.squeeze(t)] without [axis]: every dimension of size 1 is removed. *)
Definition tf_squeeze {A} (t : Tensor A) : Tensor A :=
  mkTensor (List.filter (fun d => negb (d =? 1)%nat) (shape t)) (data t).

(** One row of [tf.one_hot]: [on] at position [l], [off] elsewhere; an index
    outside [0, depth) gives a row of [off]. *)
Definition one_hot_row {A} (on off : A) (depth : nat) (l : Z) : list A :=
  map (fun k => if (Z.of_nat k =? l)%Z then on else off) (seq 0 depth).

(** [tf.one_hot(indices, depth)]: a new innermost axis of size [depth]. *)
Definition tf_one_hot {A} (on off : A) (indices : Tensor Z) (depth : nat)
  : Tensor A :=
  mkTensor (shape indices ++ [depth])
           (flat_map (one_hot_row on off depth) (data indices)).

(** [tf.ones_like(t)]: same shape and the same dtype as [t]. *)
Definition tf_ones_like (t : Tensor Z) : Tensor Z :=
  mkTensor (shape t) (map (fun _ => 1%Z) (data t)).

(** [tf.cast(mask, tf.float32)] of a bool tensor. *)
Definition cast_bool_float (t : Tensor bool) : Tensor R :=
  mkTensor (shape t) (map (fun b : bool => if b then 1 else 0) (data t)).

(** Elementwise map, used for the unary operators and for the operators
    that combine a tensor with a Python scalar. *)
Definition tmap {A B} (f : A -> B) (t : Tensor A) : Tensor B :=
  mkTensor (shape t) (map f (data t)).

(** Unary minus. *)
Definition tf_negative (t : Tensor R) : Tensor R := tmap Ropp t.

Definition Rsum (l : list R) : R := fold_right Rplus 0 l.

(** [tf.reduce_mean(t)] over all axes: a scalar tensor. *)
Definition tf_reduce_mean (t : Tensor R) : Tensor R :=
  mkTensor [] [Rsum (data t) / INR (length (data t))].

(** ** Matrices: tensors of rank 2 *)

Definition dim0 {A} (t : Tensor A) : nat := nth 0 (shape t) 0%nat.
Definition dim1 {A} (t : Tensor A) : nat := nth 1 (shape t) 0%nat.

(** Element [(i, j)] of a matrix stored row-major. *)
Definition get2 {A} (d : A) (t : Tensor A) (i j : nat) : A :=
  nth (i * dim1 t + j) (data t) d.

(** The [rows] x [cols] matrix whose element [(i, j)] is [f i j]. *)
Definition tabulate2 {A} (rows cols : nat) (f : nat -> nat -> A) : Tensor A :=
  mkTensor [rows; cols]
           (flat_map (fun i => map (f i) (seq 0 cols)) (seq 0 rows)).

(** Broadcasting of one dimension: a dimension of size 1 is stretched to
    the size of the other operand and always read at index 0. *)
Definition bdim (a b : nat) : nat := if (a =? 1)%nat then b else a.
Definition bidx (a i : nat) : nat := if (a =? 1)%nat then 0%nat else i.

(** A binary elementwise operator on two matrices, with broadcasting. *)
Definition broadcast2 {A B C} (da : A) (db : B) (f : A -> B -> C)
    (a : Tensor A) (b : Tensor B) : Tensor C :=
  tabulate2 (bdim (dim0 a) (dim0 b)) (bdim (dim1 a) (dim1 b))
    (fun i j => f (get2 da a (bidx (dim0 a) i) (bidx (dim1 a) j))
                  (get2 db b (bidx (dim0 b) i) (bidx (dim1 b) j))).

Definition tf_div : Tensor R -> Tensor R -> Tensor R := broadcast2 0 0 Rdiv.
Definition tf_multiply : Tensor R -> Tensor R -> Tensor R :=
  broadcast2 0 0 Rmult.
Definition tf_add : Tensor R -> Tensor R -> Tensor R := broadcast2 0 0 Rplus.

(** Euclidean norm of row [i] and of column [j] of a matrix. *)
Definition row_norm (t : Tensor R) (i : nat) : R :=
  sqrt (Rsum (map (fun k => Rsqr (get2 0 t i k)) (seq 0 (dim1 t)))).
Definition col_norm (t : Tensor R) (j : nat) : R :=
  sqrt (Rsum (map (fun k => Rsqr (get2 0 t k j)) (seq 0 (dim0 t)))).

(** [tf.norm(t, axis=1, keep_dims=True)]: the norm of every row, a column
    of shape [[rows; 1]]. *)
Definition tf_norm_axis1 (t : Tensor R) : Tensor R :=
  tabulate2 (dim0 t) 1 (fun i _ => row_norm t i).

(** [tf.norm(t, axis=0, keep_dims=True)]: the norm of every column, a row
    of shape [[1; cols]]. *)
Definition tf_norm_axis0 (t : Tensor R) : Tensor R :=
  tabulate2 1 (dim1 t) (fun _ j => col_norm t j).

(** [tf.matmul(a, b)] *)
Definition tf_matmul (a b : Tensor R) : Tensor R :=
  tabulate2 (dim0 a) (dim1 b)
    (fun i j => Rsum (map (fun k => get2 0 a i k * get2 0 b k j)
                          (seq 0 (dim1 a)))).

Definition tf_square : Tensor R -> Tensor R := tmap Rsqr.
Definition tf_sqrt : Tensor R -> Tensor R := tmap sqrt.

(** [tf.nn.relu] *)
Definition tf_nn_relu : Tensor R -> Tensor R := tmap (fun x => Rmax x 0).

(** [tf.cast(t, dtype=tf.bool)] of a float tensor: true where nonzero. *)
Definition cast_float_bool : Tensor R -> Tensor bool :=
  tmap (fun x => if Req_EM_T x 0 then false else true).

(** [tf.where(cond, x, y)] on three matrices of one shape. *)
Definition tf_where (cond : Tensor bool) (x y : Tensor R) : Tensor R :=
  tabulate2 (dim0 x) (dim1 x)
    (fun i j => if get2 false cond i j then get2 0 x i j else get2 0 y i j).

(** ** IEEE 754 binary32

    The float32 of TensorFlow: precision 24, maximal exponent 128, rounding
    to nearest even, with infinities and NaN. *)












(** ** Results and exceptions *)

Inductive Error := ValueError | TypeError | InvalidArgumentError.

Inductive Result (A : Type) :=
| Ok (a : A)
| Raise (e : Error).
Arguments Ok {A} a.
Arguments Raise {A} e.

#[global] Instance Result_ret : MRet Result := fun _ a => Ok a.

#[global] Instance Result_bind : MBind Result := fun _ _ k r =>
  match r with
  | Ok a => k a
  | Raise e => Raise e
  end.

(** [tf.assert_rank(t, r)] under [tf.control_dependencies]: the guarded
    operator runs only when the assertion holds. *)
Definition tf_assert_rank {A} (t : Tensor A) (r : nat) : Result unit :=
  if (tf_rank t =? r)%nat then Ok tt else Raise InvalidArgumentError.

(** ** The framework interface *)

(** [tf.losses.Reduction] *)
Inductive Reduction :=
| NONE | SUM | MEAN | SUM_OVER_BATCH_SIZE
| SUM_OVER_NONZERO_WEIGHTS | SUM_BY_NONZERO_WEIGHTS.

(** The [weights] argument of [tf.losses.softmax_cross_entropy]: a Python
    float or a mask tensor. *)
Inductive LossWeights :=
| WConst (w : R)
| WMask (mask : Tensor bool).

(** The numerical operators delegated to TensorFlow. Argument order follows
    the keyword arguments of the calls in loss_utils.py. *)
Class TensorFlow := {
  (** [tf.losses.softmax_cross_entropy(onehot_labels, logits, weights,
      label_smoothing, reduction)] *)
  tf_losses_softmax_cross_entropy :
    Tensor Z -> Tensor R -> LossWeights -> R -> Reduction -> Tensor R;
  (** [tf.nn.ctc_loss_v2(labels, logits, label_length, logit_length,
      logits_time_major, blank_index)] *)
  tf_nn_ctc_loss_v2 :
    Tensor Z -> Tensor R -> Tensor Z -> Tensor Z -> bool -> Z -> Tensor R;
  (** [tf.contrib.crf.crf_log_likelihood(inputs, tag_indices,
      sequence_lengths, transition_params)]: the per-example log-likelihood
      and the transition parameters. *)
  tf_contrib_crf_crf_log_likelihood :
    Tensor R -> Tensor Z -> Tensor Z -> Tensor R -> Tensor R * Tensor R;
  (** The kernel of [tf.contrib.seq2seq.sequence_loss] on float weights,
      averaged across time steps and batch. *)
  seq2seq_weighted_loss : Tensor R -> Tensor Z -> Tensor R -> Tensor R;
  (** [tf.contrib.layers.xavier_initializer(uniform=True)] at a shape. *)
  xavier_initializer : list nat -> Tensor R
}.

(** [tf.contrib.seq2seq.sequence_loss(logits, targets, weights)]. The
    operator multiplies the float32 per-token cross-entropy by [weights];
    TensorFlow 1.x has no implicit dtype promotion, so weights that are not
    a float tensor are rejected with a TypeError. *)
Definition tf_contrib_seq2seq_sequence_loss `{tf : TensorFlow}
    (logits : Tensor R) (targets : Tensor Z) (weights : AnyTensor)
  : Result (Tensor R) :=
  match weights with
  | FloatT w => Ok (seq2seq_weighted_loss logits targets w)
  | IntT _ | BoolT _ => Raise TypeError
  end.

(** The helpers of [delta.utils] that loss_utils.py imports. *)
Class DeltaUtils := {
  (** [utils.len_to_mask(length)]: the boolean mask of a length tensor. *)
  len_to_mask : Tensor Z -> Tensor bool
}.

(** ** The variable store *)

(** The [reuse] flag of the enclosing [tf.variable_scope]. *)
Inductive Reuse := ReuseFalse | ReuseTrue | AutoReuse.

(** The hidden state of the default graph: its variables, by full name,
    with their current values; the reuse flag in force; and the collection
    [tf.GraphKeys.LOSSES], in the order the losses were added. *)
Record VarStore := mkStore {
  vs_vars : gmap string (Tensor R);
  vs_reuse : Reuse;
  vs_losses : list (Tensor R)
}.

(** A computation that may read and extend the state of the graph and may
    raise. *)
Definition Graph (A : Type) : Type := VarStore -> Result A * VarStore.

#[global] Instance Graph_ret : MRet Graph := fun _ a st => (Ok a, st).

#[global] Instance Graph_bind : MBind Graph := fun _ _ k c st =>
  match c st with
  | (Ok a, st') => k a st'
  | (Raise e, st') => (Raise e, st')
  end.

(** Full name of a variable created inside [tf.variable_scope(scope)]. *)
Definition variable_scope (scope name : string) : string :=
  scope +:+ "/" +:+ name.

(** [tf.get_variable(name, shape, initializer)]. A variable that exists is
    returned when the scope reuses variables and the shapes agree, and is
    an error otherwise; a variable that does not exist is created from the
    initializer unless the scope demands reuse. *)
Definition tf_get_variable (name : string) (shp : list nat)
    (initializer : list nat -> Tensor R) : Graph (Tensor R) :=
  fun st =>
    match vs_vars st !! name with
    | Some v =>
        match vs_reuse st with
        | ReuseFalse => (Raise ValueError, st)
        | ReuseTrue | AutoReuse =>
            if decide (shape v = shp) then (Ok v, st)
            else (Raise ValueError, st)
        end
    | None =>
        match vs_reuse st with
        | ReuseTrue => (Raise ValueError, st)
        | ReuseFalse | AutoReuse =>
            let v := initializer shp in
            (Ok v, mkStore (<[name := v]> (vs_vars st)) (vs_reuse st)
                        (vs_losses st))
        end
    end.

(** ** The loss functions *)

Section Losses.
Context `{tf : TensorFlow} `{utils : DeltaUtils}.

Definition cross_entropy (logits : Tensor R) (labels : Tensor Z)
    (input_length label_length : option (Tensor Z))
    (smoothing : R) (reduction : Reduction) : Tensor R :=
  (* del input_length *)
  let onehot_labels :=
    if (Z.of_nat (tf_rank logits) - Z.of_nat (tf_rank labels) =? 1)%Z
    then tf_one_hot 1%Z 0%Z labels (last_dim logits)
    else labels in
  let weights :=
    match label_length with
    | Some l => WMask (len_to_mask l)
    | None => WConst 1
    end in
  let loss :=
    tf_losses_softmax_cross_entropy onehot_labels logits weights
                                    smoothing reduction in
  loss.

Definition ctc_lambda_loss (logits : Tensor R) (labels : Tensor Z)
    (input_length label_length : Tensor Z) (blank_index : Z)
  : Result (Tensor R) :=
  let ilen :=
    if (tf_rank input_length =? 1)%nat then input_length
    else tf_squeeze input_length in
  let olen :=
    if (tf_rank label_length =? 1)%nat then label_length
    else tf_squeeze label_length in
  (* deps, run before the operator by tf.control_dependencies *)
  tf_assert_rank labels 2 ;;
  tf_assert_rank logits 3 ;;
  tf_assert_rank ilen 1 ;;
  tf_assert_rank olen 1 ;;
  let batch_loss := tf_nn_ctc_loss_v2 labels logits olen ilen false
                                      blank_index in
  (* batch_loss.set_shape([None]) only refines the static shape *)
  Ok batch_loss.

Definition crf_log_likelihood (tags_scores : Tensor R) (labels : Tensor Z)
    (input_length : Tensor Z) (transitions : Tensor R)
  : Tensor R * Tensor R :=
  let '(log_likelihood, transition_params) :=
    tf_contrib_crf_crf_log_likelihood tags_scores labels input_length
                                      transitions in
  let loss := tf_reduce_mean (tf_negative log_likelihood) in
  (loss, transition_params).

Definition mask_sequence_loss (logits : Tensor R) (labels : Tensor Z)
    (input_length label_length : option (Tensor Z)) (smoothing : R)
  : Result (Tensor R) :=
  (* del smoothing; del input_length *)
  let weights :=
    match label_length with
    | Some l => FloatT (cast_bool_float (len_to_mask l))
    | None => IntT (tf_ones_like labels)
    end in
  let loss := tf_contrib_seq2seq_sequence_loss logits labels weights in
  loss.

Definition arcface_loss (embedding : Tensor R) (labels : Tensor Z)
    (out_num : nat) (weights : option (Tensor R)) (s m : R)
    (limit_to_pi : bool) : Graph (Tensor R) :=
  let cos_m := cos m in
  let sin_m := sin m in
  let mm := sin_m * m in
  let threshold := cos (PI - m) in
  (* with tf.variable_scope('arcface_loss'); the operators below are
     those of matrices: embedding (batch, dim), weights (dim, out_num),
     labels a vector of batch class indices *)
  let embedding_norm := tf_norm_axis1 embedding in
  let embedding := tf_div embedding embedding_norm in
  weights ← match weights with
            | None =>
                tf_get_variable (variable_scope "arcface_loss" "weights")
                                [last_dim embedding; out_num]
                                xavier_initializer
            | Some w => mret w
            end;
  let weights_norm := tf_norm_axis0 weights in
  let weights := tf_div weights weights_norm in
  let cos_t := tf_matmul embedding weights in
  let cos_t2 := tf_square cos_t in
  let sin_t2 := tmap (fun x => 1 - x) cos_t2 in
  let sin_t := tf_sqrt sin_t2 in
  let cos_mt :=
    tmap (Rmult s)
         (broadcast2 0 0 Rminus (tmap (fun x => x * cos_m) cos_t)
                                (tmap (fun x => x * sin_m) sin_t)) in
  let cos_mt_temp :=
    if limit_to_pi then
      let cond_v := tmap (fun x => x - threshold) cos_t in
      let cond := cast_float_bool (tf_nn_relu cond_v) in
      let keep_val := tmap (Rmult s) (tmap (fun x => x - mm) cos_t) in
      tf_where cond cos_mt keep_val
    else cos_mt in
  let mask := tf_one_hot 1 0 labels out_num in
  let inv_mask := tmap (fun x => 1 - x) mask in
  let s_cos_t := tmap (Rmult s) cos_t in
  let output :=
    tf_add (tf_multiply s_cos_t inv_mask) (tf_multiply cos_mt_temp mask) in
  mret output.

End Losses.

(** ** The calls, with the checks and effects of the operators

    The definitions above give the value each function computes, with
    every delegated operator taken as the function of its kernel. A call
    also meets what the operators do around the kernel: the dtype rules of
    [tf.cond] and [tf.one_hot], the registration of the loss in the
    collection LOSSES by [tf.losses.softmax_cross_entropy], the variable
    that [tf.contrib.crf.crf_log_likelihood] creates when it is given no
    transition parameters, and each operator's own validation of its
    arguments, after which it raises instead of running its kernel. *)


(** What each delegated operator checks of its arguments before its kernel
    runs. The checks are those of TensorFlow and are left open here: the
    statements about the calls hold whatever an operator rejects. *)
Class TensorFlowChecks := {
  (** of [tf.losses.softmax_cross_entropy], on the one-hot labels, the
      logits and the weights *)
  softmax_cross_entropy_check :
    Tensor Z -> Tensor R -> LossWeights -> Result unit;
  (** of [tf.nn.ctc_loss_v2], on the labels, the logits, the label lengths
      and the logit lengths *)
  ctc_loss_v2_check :
    Tensor Z -> Tensor R -> Tensor Z -> Tensor Z -> Result unit;
  (** of [tf.contrib.crf.crf_log_likelihood], on the inputs, the tags, the
      sequence lengths and the transition parameters *)
  crf_log_likelihood_check :
    Tensor R -> Tensor Z -> Tensor Z -> Tensor R -> Result unit;
  (** of [tf.contrib.seq2seq.sequence_loss], on the logits, the targets and
      float weights *)
  sequence_loss_check : Tensor R -> Tensor Z -> Tensor R -> Result unit
}.

(** An operator that only adds nodes to the graph: it may raise, and it
    touches neither the variables nor the collections. *)
Definition graph_op {A} (r : Result A) : Graph A := fun st => (r, st).


Section Calls.
Context `{tf : TensorFlow} `{checks : TensorFlowChecks} `{utils : DeltaUtils}.



(** [tf.nn.ctc_loss_v2(...)] as called: the kernel behind the validation
    of its arguments. *)
Definition tf_nn_ctc_loss_v2_call (labels : Tensor Z) (logits : Tensor R)
    (label_length logit_length : Tensor Z) (logits_time_major : bool)
    (blank_index : Z) : Result (Tensor R) :=
  ctc_loss_v2_check labels logits label_length logit_length ;;
  Ok (tf_nn_ctc_loss_v2 labels logits label_length logit_length
                        logits_time_major blank_index).

(** [ctc_lambda_loss] as called: the same assertions, then the operator
    with its own validation. *)
Definition ctc_lambda_loss_call (logits : Tensor R) (labels : Tensor Z)
    (input_length label_length : Tensor Z) (blank_index : Z)
  : Graph (Tensor R) :=
  let ilen :=
    if (tf_rank input_length =? 1)%nat then input_length
    else tf_squeeze input_length in
  let olen :=
    if (tf_rank label_length =? 1)%nat then label_length
    else tf_squeeze label_length in
  graph_op (tf_assert_rank labels 2) ;;
  graph_op (tf_assert_rank logits 3) ;;
  graph_op (tf_assert_rank ilen 1) ;;
  graph_op (tf_assert_rank olen 1) ;;
  batch_loss ← graph_op (tf_nn_ctc_loss_v2_call labels logits olen ilen
                                                false blank_index);
  mret batch_loss.




End Calls.

(** ** A reference instance of the interface

    The operators return zero tensors of the shapes TensorFlow documents;
    the instance is used to run the loss functions on concrete inputs. *)

Definition zeros (sh : list nat) : Tensor R :=
  mkTensor sh (repeat 0 (numel sh)).

Definition reference_tf : TensorFlow := {|
  tf_losses_softmax_cross_entropy := fun _ logits _ _ reduction =>
    match reduction with
    | NONE => zeros (removelast (shape logits))
    | _ => zeros []
    end;
  tf_nn_ctc_loss_v2 := fun _ logits _ _ _ _ => zeros [dim0 logits];
  tf_contrib_crf_crf_log_likelihood := fun inputs _ _ transitions =>
    (zeros [dim0 inputs], transitions);
  seq2seq_weighted_loss := fun _ _ _ => zeros [];
  xavier_initializer := zeros
|}.

(** Modelled from the spec: [utils.len_to_mask] is defined in delta/utils,
    outside loss_utils.py; it is the 0/1 mask derived from a length tensor,
    true at the positions below each length, as wide as the longest one. *)
Definition reference_utils : DeltaUtils := {|
  len_to_mask := fun lens =>
    let maxlen := Z.to_nat (fold_right Z.max 0%Z (data lens)) in
    mkTensor (shape lens ++ [maxlen])
      (flat_map (fun l => map (fun k => (Z.of_nat k <? l)%Z) (seq 0 maxlen))
                (data lens))
|}.

(** Checks for the reference instance, each one a check the operator is
    documented to make: one-hot labels of the shape of the logits; labels,
    logits and both length vectors of one batch size; scores of rank 3 with
    tags of rank 2; logits of rank 3 with targets and weights of rank 2. *)
Definition reference_checks : TensorFlowChecks := {|
  softmax_cross_entropy_check := fun onehot logits _ =>
    if decide (shape onehot = shape logits) then Ok tt
    else Raise ValueError;
  ctc_loss_v2_check := fun labels logits label_length logit_length =>
    if (dim0 labels =? dim0 logits)%nat
       && (dim0 label_length =? dim0 logits)%nat
       && (dim0 logit_length =? dim0 logits)%nat
    then Ok tt else Raise InvalidArgumentError;
  crf_log_likelihood_check := fun inputs tags _ _ =>
    if (tf_rank inputs =? 3)%nat && (tf_rank tags =? 2)%nat then Ok tt
    else Raise ValueError;
  sequence_loss_check := fun logits targets weights =>
    if (tf_rank logits =? 3)%nat && (tf_rank targets =? 2)%nat
       && (tf_rank weights =? 2)%nat
    then Ok tt else Raise ValueError
|}.

(** The documented output shapes of the delegated operators. *)
Class TensorFlowShapes (tf : TensorFlow) : Prop := {
  softmax_cross_entropy_scalar :
    forall onehot logits weights smoothing reduction,
      reduction <> NONE ->
      shape (tf_losses_softmax_cross_entropy onehot logits weights smoothing
                                             reduction) = [];
  softmax_cross_entropy_unreduced :
    forall onehot logits weights smoothing,
      shape (tf_losses_softmax_cross_entropy onehot logits weights smoothing
                                             NONE)
      = removelast (shape logits);
  ctc_loss_v2_per_example :
    forall labels logits label_length logit_length blank_index,
      tf_rank logits = 3%nat ->
      shape (tf_nn_ctc_loss_v2 labels logits label_length logit_length false
                               blank_index) = [dim0 logits];
  crf_log_likelihood_per_example :
    forall inputs tags lens transitions,
      shape (tf_contrib_crf_crf_log_likelihood inputs tags lens
                                               transitions).1
      = [dim0 inputs];
  seq2seq_weighted_loss_scalar :
    forall logits targets weights,
      shape (seq2seq_weighted_loss logits targets weights) = []
}.

(** ** Vocabulary of the statements *)



(** The length tensor as [ctc_lambda_loss] hands it to the operator:
    unchanged when of rank 1, squeezed otherwise. *)
Definition squeezed_length (len : Tensor Z) : Tensor Z :=
  if (tf_rank len =? 1)%nat then len else tf_squeeze len.

(** The rank preconditions asserted by [ctc_lambda_loss]. *)
Definition ctc_ranks_ok (logits : Tensor R) (labels : Tensor Z)
    (input_length label_length : Tensor Z) : Prop :=
  tf_rank labels = 2%nat /\ tf_rank logits = 3%nat /\
  tf_rank (squeezed_length input_length) = 1%nat /\
  tf_rank (squeezed_length label_length) = 1%nat.

(** cos(theta): the product of the row-normalised embedding and the
    column-normalised weights. *)
Definition cos_theta (embedding weights : Tensor R) : Tensor R :=
  tf_matmul (tf_div embedding (tf_norm_axis1 embedding))
            (tf_div weights (tf_norm_axis0 weights)).

(** What [arcface_loss] computes at one entry of the output, from the
    entry [c] of cos(theta) and the entry [mask] of the one-hot mask. *)
Definition arcface_entry (s m : R) (limit_to_pi : bool) (c mask : R) : R :=
  let cos_mt := s * (c * cos m - sqrt (1 - Rsqr c) * sin m) in
  let cos_mt_temp :=
    if limit_to_pi then
      if (if Req_EM_T (Rmax (c - cos (PI - m)) 0) 0 then false else true)
      then cos_mt
      else s * (c - sin m * m)
    else cos_mt in
  s * c * (1 - mask) + cos_mt_temp * mask.


(** The matrix [t] with column [j] multiplied by [c]. *)
Definition scale_column (j : nat) (c : R) (t : Tensor R) : Tensor R :=
  tabulate2 (dim0 t) (dim1 t)
    (fun i k => if (k =? j)%nat then c * get2 0 t i k else get2 0 t i k).


(** Full name of the variable that [arcface_loss] creates. *)
Definition arcface_weights_name : string :=
  variable_scope "arcface_loss" "weights".

(** A length tensor [len] as the vector [v] it stands for: itself when of
    rank 1; otherwise, when exactly one of its dimensions is not 1, the
    same elements as a vector of that dimension. *)
Definition length_vector (len v : Tensor Z) : Prop :=
  (length (shape len) = 1%nat /\ v = len) \/
  (length (shape len) <> 1%nat /\
   exists n, List.filter (fun d => negb (d =? 1)%nat) (shape len) = [n] /\
             v = mkTensor [n] (data len)).

(** The rank preconditions of [ctc_lambda_loss]: labels of rank 2, logits
    of rank 3, and each length tensor standing for a vector. *)
Definition ctc_preconditions (logits : Tensor R)
    (labels input_length label_length : Tensor Z) : Prop :=
  length (shape labels) = 2%nat /\ length (shape logits) = 3%nat /\
  (exists ilen, length_vector input_length ilen) /\
  (exists olen, length_vector label_length olen).





(** Concrete inputs: one example of dimension 1, two classes. *)
Definition ex_embedding : Tensor R := mkTensor [1; 1]%nat [1].
Definition ex_labels : Tensor Z := mkTensor [1%nat] [0%Z].
Definition ex_weights : Tensor R := mkTensor [1; 2]%nat [1; 1].
Definition empty_store : VarStore := mkStore ∅ ReuseFalse [].

(** Concrete sequence inputs, batch of two: logits of shape (2, 2, 3),
    labels of shape (2, 2), lengths of shape (2, 1) as the docstring of
    [ctc_lambda_loss] gives them. *)
Definition ex_seq_logits : Tensor R := zeros [2; 2; 3]%nat.
Definition ex_seq_labels : Tensor Z :=
  mkTensor [2; 2]%nat [1%Z; 2%Z; 2%Z; 1%Z].
Definition ex_seq_length : Tensor Z := mkTensor [2; 1]%nat [2%Z; 2%Z].

(** The same for a batch of one. *)
Definition ex_one_logits : Tensor R := zeros [1; 2; 3]%nat.
Definition ex_one_labels : Tensor Z := mkTensor [1; 2]%nat [1%Z; 2%Z].
Definition ex_one_length : Tensor Z := mkTensor [1; 1]%nat [2%Z].

(** Lengths already given as a vector of two lengths. *)
Definition ex_vec_length : Tensor Z := mkTensor [2%nat] [2%Z; 2%Z].

(** Labels of a batch of three, of shape (3, 2). *)
Definition ex_three_labels : Tensor Z :=
  mkTensor [3; 2]%nat [1%Z; 2%Z; 2%Z; 1%Z; 1%Z; 1%Z].



(** * Properties *)

Lemma reference_tf_shapes : TensorFlowShapes reference_tf.
Proof.
  split; simpl; try reflexivity.
  intros _ logits _ _ reduction Hred.
  destruct reduction; try reflexivity. contradiction.
Qed.

(** ** The tensor operators on small inputs *)

Example tf_squeeze_column :
  tf_squeeze (mkTensor [3; 1]%nat [4%Z; 5%Z; 6%Z])
  = mkTensor [3%nat] [4%Z; 5%Z; 6%Z].
Proof. reflexivity. Qed.

Example tf_squeeze_single :
  tf_rank (tf_squeeze (mkTensor [1; 1]%nat [4%Z])) = 0%nat.
Proof. reflexivity. Qed.

Example tf_one_hot_example :
  tf_one_hot 1%Z 0%Z (mkTensor [3%nat] [1%Z; 0%Z; 5%Z]) 2
  = mkTensor [3; 2]%nat [0%Z; 1%Z; 1%Z; 0%Z; 0%Z; 0%Z].
Proof. reflexivity. Qed.

Example len_to_mask_example :
  len_to_mask (DeltaUtils := reference_utils) (mkTensor [2%nat] [1%Z; 2%Z])
  = mkTensor [2; 2]%nat [true; false; true; true].
Proof. reflexivity. Qed.

Example get2_example :
  get2 0%Z (mkTensor [2; 3]%nat [1%Z; 2%Z; 3%Z; 4%Z; 5%Z; 6%Z]) 1 2 = 6%Z.
Proof. reflexivity. Qed.

Example broadcast2_column :
  broadcast2 0%Z 0%Z Z.add
    (mkTensor [2; 2]%nat [1%Z; 2%Z; 3%Z; 4%Z])
    (mkTensor [2; 1]%nat [10%Z; 20%Z])
  = mkTensor [2; 2]%nat [11%Z; 12%Z; 23%Z; 24%Z].
Proof. reflexivity. Qed.

Example broadcast2_row :
  broadcast2 0%Z 0%Z Z.add
    (mkTensor [2; 2]%nat [1%Z; 2%Z; 3%Z; 4%Z])
    (mkTensor [1; 2]%nat [10%Z; 20%Z])
  = mkTensor [2; 2]%nat [11%Z; 22%Z; 13%Z; 24%Z].
Proof. reflexivity. Qed.

(** ** Glue around the delegated operators *)

Lemma tf_one_hot_shape {A} (on off : A) labels depth :
  shape (tf_one_hot on off labels depth) = shape labels ++ [depth].
Proof. reflexivity. Qed.


Lemma nth_map_lt {A B} (f : A -> B) (l : list A) (n : nat) (da : A) (db : B) :
  (n < length l)%nat -> nth n (map f l) db = f (nth n l da).
Proof.
  revert n. induction l as [|x l IH]; intros n Hn; simpl in *; [lia|].
  destruct n as [|n]; [reflexivity|]. apply IH. lia.
Qed.



Lemma tf_assert_rank_ok {A} (t : Tensor A) r :
  tf_rank t = r -> tf_assert_rank t r = Ok tt.
Proof. intros <-. unfold tf_assert_rank. now rewrite Nat.eqb_refl. Qed.

Lemma tf_assert_rank_raise {A} (t : Tensor A) r :
  tf_rank t <> r -> tf_assert_rank t r = Raise InvalidArgumentError.
Proof.
  intros Hne. unfold tf_assert_rank.
  destruct (Nat.eqb_spec (tf_rank t) r); [contradiction | reflexivity].
Qed.


(** Lengths of shape (1, 1), the documented (B, 1) at a batch of one, are
    squeezed to a scalar and fail the rank assertion. *)
Example ctc_lambda_loss_batch_of_one :
  ctc_lambda_loss (tf := reference_tf) ex_one_logits ex_one_labels
                  ex_one_length ex_one_length 0
  = Raise InvalidArgumentError.
Proof. reflexivity. Qed.



(** C8. The result of [cross_entropy] does not depend on [input_length],
    and the result of [mask_sequence_loss] depends neither on [input_length]
    nor on [smoothing]. *)
Theorem deleted_arguments_ignored `{tf : TensorFlow} `{utils : DeltaUtils}
    logits labels label_length :
  (forall input_length input_length' smoothing reduction,
     cross_entropy logits labels input_length label_length smoothing
                   reduction
     = cross_entropy logits labels input_length' label_length smoothing
                     reduction) /\
  (forall input_length input_length' smoothing smoothing',
     mask_sequence_loss logits labels input_length label_length smoothing
     = mask_sequence_loss logits labels input_length' label_length
                          smoothing').
Proof. split; reflexivity. Qed.

Lemma cast_bool_float_values (mask : Tensor bool) :
  shape (cast_bool_float mask) = shape mask /\
  Forall (fun x => x = 0 \/ x = 1) (data (cast_bool_float mask)).
Proof.
  split; [reflexivity|]. simpl.
  induction (data mask) as [|b l IH]; simpl; constructor; auto.
  destruct b; auto.
Qed.

Lemma tf_ones_like_values (t : Tensor Z) :
  shape (tf_ones_like t) = shape t /\
  Forall (fun x => x = 1%Z) (data (tf_ones_like t)) /\
  length (data (tf_ones_like t)) = length (data t).
Proof.
  repeat split; simpl; [|now rewrite length_map].
  induction (data t) as [|x l IH]; simpl; constructor; auto.
Qed.

(** With [label_length] given, [mask_sequence_loss] is TensorFlow's sequence
    loss weighted by the length mask cast to float, a scalar. *)
Lemma mask_sequence_loss_masked `{tf : TensorFlow} `{utils : DeltaUtils}
    `{shapes : !TensorFlowShapes tf} logits labels input_length l smoothing :
  exists loss,
    mask_sequence_loss logits labels input_length (Some l) smoothing
    = Ok loss /\
    loss = seq2seq_weighted_loss logits labels
             (cast_bool_float (len_to_mask l)) /\
    shape loss = [].
Proof.
  eexists. split; [reflexivity|]. split; [reflexivity|].
  apply seq2seq_weighted_loss_scalar.
Qed.

(** C7. With [label_length] None, [mask_sequence_loss] hands the sequence
    loss the weights [tf.ones_like(labels)], which have the integer dtype of
    the labels and not the float dtype the other branch casts to; the
    operator rejects them and no loss is returned. *)
Theorem mask_sequence_loss_without_label_length `{tf : TensorFlow} `{utils : DeltaUtils}
    logits labels input_length smoothing :
  mask_sequence_loss logits labels input_length None smoothing
  = tf_contrib_seq2seq_sequence_loss logits labels
      (IntT (tf_ones_like labels)) /\
  mask_sequence_loss logits labels input_length None smoothing
  = Raise TypeError.
Proof. split; reflexivity. Qed.

(** ** Matrices *)

Lemma nth_flat_map_fixed {A B} (f : A -> list B) (l : list A) (n i j : nat)
    (da : A) (d : B) :
  (forall x, length (f x) = n) -> (i < length l)%nat -> (j < n)%nat ->
  nth (i * n + j) (flat_map f l) d = nth j (f (nth i l da)) d.
Proof.
  intros Hlen. revert i.
  induction l as [|x l IH]; intros i Hi Hj; simpl in *; [lia|].
  destruct i as [|i]; simpl.
  - apply app_nth1. now rewrite Hlen.
  - rewrite app_nth2 by (rewrite Hlen; lia).
    rewrite Hlen. replace (n + i * n + j - n)%nat with (i * n + j)%nat by lia.
    apply IH; lia.
Qed.

Lemma flat_map_nth_seq {A B} (f : A -> list B) (l : list A) (da : A) :
  flat_map f l = flat_map (fun i => f (nth i l da)) (seq 0 (length l)).
Proof.
  induction l as [|x l IH]; [reflexivity|]. simpl. f_equal.
  rewrite IH, <- seq_shift.
  rewrite (flat_map_concat_map _ (map S _)), map_map.
  now rewrite <- flat_map_concat_map.
Qed.

Lemma tabulate2_dims {A} rows cols (f : nat -> nat -> A) :
  dim0 (tabulate2 rows cols f) = rows /\ dim1 (tabulate2 rows cols f) = cols.
Proof. split; reflexivity. Qed.

Lemma get2_tabulate2 {A} (d : A) rows cols f i j :
  (i < rows)%nat -> (j < cols)%nat ->
  get2 d (tabulate2 rows cols f) i j = f i j.
Proof.
  intros Hi Hj. unfold get2. simpl.
  rewrite (nth_flat_map_fixed _ _ cols i j 0%nat).
  - rewrite (nth_map_lt _ _ _ 0%nat) by now rewrite length_seq.
    now rewrite !seq_nth.
  - intros x. now rewrite length_map, length_seq.
  - now rewrite length_seq.
  - assumption.
Qed.

Lemma tabulate2_ext {A} rows cols (f g : nat -> nat -> A) :
  (forall i j, (i < rows)%nat -> (j < cols)%nat -> f i j = g i j) ->
  tabulate2 rows cols f = tabulate2 rows cols g.
Proof.
  intros Hfg. unfold tabulate2. f_equal.
  rewrite !flat_map_concat_map. f_equal.
  apply map_ext_in. intros i Hi. apply in_seq in Hi.
  apply map_ext_in. intros j Hj. apply in_seq in Hj.
  apply Hfg; lia.
Qed.

Lemma tmap_tabulate2 {A B} (h : A -> B) rows cols f :
  tmap h (tabulate2 rows cols f) = tabulate2 rows cols (fun i j => h (f i j)).
Proof.
  unfold tmap, tabulate2. simpl. f_equal.
  rewrite !flat_map_concat_map, concat_map, map_map. f_equal.
  apply map_ext. intros i. now rewrite map_map.
Qed.

Lemma bidx_lt a i : (i < a)%nat -> bidx a i = i.
Proof.
  unfold bidx. destruct (Nat.eqb_spec a 1); [lia | reflexivity].
Qed.

Lemma bdim_same a : bdim a a = a.
Proof. unfold bdim. now destruct (a =? 1)%nat. Qed.

Lemma bdim_one_r a : bdim a 1 = a.
Proof. unfold bdim. now destruct (Nat.eqb_spec a 1). Qed.

(** Two matrices of one shape: the operator is applied elementwise. *)
Lemma broadcast2_tabulate2 {A B C} (da : A) (db : B) (h : A -> B -> C)
    rows cols f g :
  broadcast2 da db h (tabulate2 rows cols f) (tabulate2 rows cols g)
  = tabulate2 rows cols (fun i j => h (f i j) (g i j)).
Proof.
  unfold broadcast2.
  destruct (tabulate2_dims rows cols f) as [-> ->].
  destruct (tabulate2_dims rows cols g) as [-> ->].
  rewrite !bdim_same. apply tabulate2_ext. intros i j Hi Hj.
  rewrite !bidx_lt by assumption.
  now rewrite !get2_tabulate2 by assumption.
Qed.

(** A matrix divided by the column of its row norms: every row is divided
    by its own norm. *)
Lemma normalize_rows (t : Tensor R) :
  tf_div t (tf_norm_axis1 t)
  = tabulate2 (dim0 t) (dim1 t) (fun i k => get2 0 t i k / row_norm t i).
Proof.
  unfold tf_div, broadcast2, tf_norm_axis1.
  destruct (tabulate2_dims (dim0 t) 1 (fun i _ => row_norm t i)) as [-> ->].
  rewrite bdim_same, bdim_one_r. apply tabulate2_ext. intros i k Hi Hk.
  rewrite !bidx_lt by assumption.
  rewrite get2_tabulate2; [reflexivity | assumption | cbn; lia].
Qed.

(** A matrix divided by the row of its column norms: every column is
    divided by its own norm. *)
Lemma normalize_columns (t : Tensor R) :
  tf_div t (tf_norm_axis0 t)
  = tabulate2 (dim0 t) (dim1 t) (fun k j => get2 0 t k j / col_norm t j).
Proof.
  unfold tf_div, broadcast2, tf_norm_axis0.
  destruct (tabulate2_dims 1 (dim1 t) (fun _ j => col_norm t j)) as [-> ->].
  rewrite bdim_same, bdim_one_r. apply tabulate2_ext. intros k j Hk Hj.
  rewrite !bidx_lt by assumption.
  rewrite get2_tabulate2; [reflexivity | cbn; lia | assumption].
Qed.

Lemma normalize_rows_dims (t : Tensor R) :
  dim0 (tf_div t (tf_norm_axis1 t)) = dim0 t /\
  dim1 (tf_div t (tf_norm_axis1 t)) = dim1 t.
Proof. rewrite normalize_rows. split; reflexivity. Qed.

Lemma normalize_columns_dims (t : Tensor R) :
  dim0 (tf_div t (tf_norm_axis0 t)) = dim0 t /\
  dim1 (tf_div t (tf_norm_axis0 t)) = dim1 t.
Proof. rewrite normalize_columns. split; reflexivity. Qed.

(** The one-hot encoding of a vector of [batch] labels, as a matrix. *)
Lemma tf_one_hot_vector {A} (on off : A) (labels : Tensor Z) batch depth :
  shape labels = [batch] -> length (data labels) = batch ->
  tf_one_hot on off labels depth
  = tabulate2 batch depth
      (fun i j => if (Z.of_nat j =? nth i (data labels) 0%Z)%Z
                  then on else off).
Proof.
  intros Hshape Hlen. unfold tf_one_hot, tabulate2. rewrite Hshape. simpl.
  f_equal. rewrite (flat_map_nth_seq _ _ 0%Z), Hlen. reflexivity.
Qed.

Lemma tf_where_tabulate2 rows cols c x y :
  tf_where (tabulate2 rows cols c) (tabulate2 rows cols x)
           (tabulate2 rows cols y)
  = tabulate2 rows cols (fun i j => if c i j then x i j else y i j).
Proof.
  unfold tf_where. destruct (tabulate2_dims rows cols x) as [-> ->].
  apply tabulate2_ext. intros i j Hi Hj.
  now rewrite !get2_tabulate2 by assumption.
Qed.

(** ** ArcFace *)

Lemma cos_theta_tabulate2 (embedding weights : Tensor R) :
  cos_theta embedding weights
  = tabulate2 (dim0 embedding) (dim1 weights)
      (fun i j =>
         Rsum (map (fun k =>
                      get2 0 (tf_div embedding (tf_norm_axis1 embedding)) i k
                      * get2 0 (tf_div weights (tf_norm_axis0 weights)) k j)
                   (seq 0 (dim1 embedding)))).
Proof.
  unfold cos_theta, tf_matmul.
  destruct (normalize_rows_dims embedding) as [-> ->].
  destruct (normalize_columns_dims weights) as [_ ->].
  reflexivity.
Qed.

(** With the weights supplied, [arcface_loss] leaves the variable store
    alone and its output is [arcface_entry] applied, entry by entry, to
    cos(theta) and the one-hot mask of the labels. *)
Lemma arcface_loss_supplied `{tf : TensorFlow} embedding labels out_num w s m
    limit_to_pi st batch :
  dim0 embedding = batch -> dim1 w = out_num ->
  shape labels = [batch] -> length (data labels) = batch ->
  arcface_loss embedding labels out_num (Some w) s m limit_to_pi st
  = (Ok (tabulate2 batch out_num
           (fun i j =>
              arcface_entry s m limit_to_pi
                (get2 0 (cos_theta embedding w) i j)
                (if (Z.of_nat j =? nth i (data labels) 0%Z)%Z
                 then 1 else 0))),
     st).
Proof.
  intros Hb Hn Hshape Hlen. unfold arcface_loss.
  unfold mbind, mret, Graph_bind, Graph_ret. cbn beta iota.
  fold (cos_theta embedding w).
  rewrite (tf_one_hot_vector 1 0 labels batch out_num Hshape Hlen).
  rewrite (cos_theta_tabulate2 embedding w), Hb, Hn.
  set (c := fun i j : nat => Rsum _).
  unfold tf_square, tf_sqrt, tf_nn_relu, cast_float_bool, tf_add, tf_multiply.
  rewrite !tmap_tabulate2.
  destruct limit_to_pi.
  - rewrite !broadcast2_tabulate2, !tmap_tabulate2, tf_where_tabulate2,
      !broadcast2_tabulate2.
    do 2 f_equal. apply tabulate2_ext. intros i j Hi Hj.
    rewrite get2_tabulate2 by assumption. reflexivity.
  - rewrite !broadcast2_tabulate2, !tmap_tabulate2, !broadcast2_tabulate2.
    do 2 f_equal. apply tabulate2_ext. intros i j Hi Hj.
    rewrite get2_tabulate2 by assumption. reflexivity.
Qed.

(** *** Cosines of unit vectors *)







(** *** The angular margin *)




(** *** Scale invariance *)











Example scale_column_example :
  scale_column 1 2 ex_weights = mkTensor [1; 2]%nat [1 * 1; 2 * 1].
Proof.
  unfold scale_column. apply (f_equal (mkTensor [1; 2]%nat)). simpl.
  unfold get2. simpl. repeat f_equal; lra.
Qed.


(** ** Shapes of the results *)

Lemma arcface_loss_shape `{tf : TensorFlow} embedding labels out_num w s m
    limit_to_pi st batch dim :
  shape embedding = [batch; dim] -> shape w = [dim; out_num] ->
  shape labels = [batch] -> length (data labels) = batch ->
  exists output,
    arcface_loss embedding labels out_num (Some w) s m limit_to_pi st
    = (Ok output, st) /\
    shape output = [batch; out_num].
Proof.
  intros He Hw Hshape Hlen. eexists. split.
  - apply (arcface_loss_supplied _ _ _ _ _ _ _ _ batch); try assumption.
    + unfold dim0. now rewrite He.
    + unfold dim1. now rewrite Hw.
  - reflexivity.
Qed.


(** ** The variable store *)

(** Without supplied weights, [arcface_loss] is [tf.get_variable] followed
    by the computation on the variable's value. *)
Lemma arcface_loss_variable `{tf : TensorFlow} embedding labels out_num s m
    limit_to_pi st :
  arcface_loss embedding labels out_num None s m limit_to_pi st
  = match tf_get_variable (variable_scope "arcface_loss" "weights")
            [last_dim (tf_div embedding (tf_norm_axis1 embedding)); out_num]
            xavier_initializer st with
    | (Ok v, st') =>
        arcface_loss embedding labels out_num (Some v) s m limit_to_pi st'
    | (Raise e, st') => (Raise e, st')
    end.
Proof. reflexivity. Qed.


(** * Further properties of the loss functions *)

(** ** ArcFace, entry by entry *)





(** ** ArcFace and the variable store *)

Lemma arcface_loss_supplied_ok `{tf : TensorFlow} embedding labels out_num w
    s m limit_to_pi :
  exists output, forall st,
    arcface_loss embedding labels out_num (Some w) s m limit_to_pi st
    = (Ok output, st).
Proof. eexists. intros st. reflexivity. Qed.

(** ** Lengths of shape (B, 1) in the CTC loss *)




(** ** Sign of the CRF loss *)

Lemma Rsum_nonneg (l : list R) : Forall (fun x => 0 <= x) l -> 0 <= Rsum l.
Proof.
  induction 1 as [|x l Hx _ IH]; simpl; lra.
Qed.

(** Log-likelihoods are at most 0; when the operator's are, on a batch that
    is not empty, the loss of [crf_log_likelihood] is a single value that is
    not negative, and it is 0 only if every log-likelihood is 0. *)
Theorem crf_log_likelihood_nonneg `{tf : TensorFlow}
    tags_scores labels input_length transitions :
  let op := tf_contrib_crf_crf_log_likelihood tags_scores labels input_length
                                              transitions in
  data op.1 <> [] ->
  Forall (fun x => x <= 0) (data op.1) ->
  exists loss,
    data (crf_log_likelihood tags_scores labels input_length transitions).1
    = [loss] /\
    0 <= loss /\
    (loss = 0 -> Forall (fun x => x = 0) (data op.1)).
Proof.
  intros op Hne Hneg. unfold crf_log_likelihood. fold op.
  destruct op as [log_likelihood transition_params]. simpl in *.
  eexists. split; [reflexivity|].
  rewrite length_map.
  assert (Hn : 0 < INR (length (data log_likelihood))).
  { apply lt_0_INR. destruct (data log_likelihood); [contradiction|].
    simpl. lia. }
  assert (Hsum : 0 <= Rsum (map Ropp (data log_likelihood))).
  { apply Rsum_nonneg. apply List.Forall_forall. intros y Hy.
    apply in_map_iff in Hy. destruct Hy as [x [<- Hx]].
    rewrite List.Forall_forall in Hneg. specialize (Hneg x Hx). lra. }
  split.
  - apply Rmult_le_pos; [exact Hsum|]. left. now apply Rinv_0_lt_compat.
  - intros Hzero.
    assert (Hsum0 : Rsum (map Ropp (data log_likelihood)) = 0).
    { apply Rmult_integral in Hzero. destruct Hzero as [H0|H0]; [exact H0|].
      exfalso. apply Rinv_0_lt_compat in Hn. lra. }
    clear Hzero Hn Hsum Hne.
    induction Hneg as [|x l Hx Hl IH]; [constructor|].
    simpl in Hsum0.
    assert (Hrest : 0 <= Rsum (map Ropp l)).
    { apply Rsum_nonneg. apply List.Forall_forall. intros y Hy.
      apply in_map_iff in Hy. destruct Hy as [z [<- Hz]].
      rewrite List.Forall_forall in Hl. specialize (Hl z Hz). lra. }
    constructor; [lra|]. apply IH. lra.
Qed.

Lemma crf_log_likelihood_nonneg_witness :
  (data (zeros [2%nat]) <> [] /\
   Forall (fun x => x <= 0) (data (zeros [2%nat]))) /\
  exists loss,
    data (crf_log_likelihood (tf := reference_tf) ex_seq_logits ex_seq_labels
            (mkTensor [2%nat] [2%Z; 2%Z]) (zeros [3; 3]%nat)).1
    = [loss] /\
    0 <= loss.
Proof.
  assert (Hne : data (zeros [2%nat]) <> []) by discriminate.
  assert (Hneg : Forall (fun x => x <= 0) (data (zeros [2%nat])))
    by (repeat constructor; apply Rle_refl).
  split; [split; assumption|].
  destruct (crf_log_likelihood_nonneg (tf := reference_tf) ex_seq_logits
              ex_seq_labels (mkTensor [2%nat] [2%Z; 2%Z]) (zeros [3; 3]%nat)
              Hne Hneg) as [loss [Hdata [Hpos _]]].
  exists loss. split; [exact Hdata | exact Hpos].
Defined.

(** * The calls *)

(** ** Lengths standing for vectors *)

Lemma length_vector_squeezed (len v : Tensor Z) :
  length_vector len v -> squeezed_length len = v /\ length (shape v) = 1%nat.
Proof.
  unfold length_vector, squeezed_length, tf_squeeze, tf_rank.
  intros [[Hrank ->]|[Hrank [n [Hfilter ->]]]].
  - apply Nat.eqb_eq in Hrank as Hb. rewrite Hb. now split.
  - apply Nat.eqb_neq in Hrank as Hb. rewrite Hb, Hfilter. now split.
Qed.

Lemma squeezed_length_vector (len : Tensor Z) :
  length (shape (squeezed_length len)) = 1%nat ->
  length_vector len (squeezed_length len).
Proof.
  unfold length_vector, squeezed_length, tf_squeeze, tf_rank.
  destruct (Nat.eqb_spec (length (shape len)) 1) as [Hrank|Hrank].
  - intros _. now left.
  - cbn [shape]. intros Hone. right. split; [assumption|].
    destruct (List.filter _ (shape len)) as [|n [|? ?]] eqn:Hfilter;
      try discriminate.
    exists n. now split.
Qed.

Lemma ctc_preconditions_ranks logits labels input_length label_length :
  ctc_preconditions logits labels input_length label_length
  <-> ctc_ranks_ok logits labels input_length label_length.
Proof.
  unfold ctc_preconditions, ctc_ranks_ok, tf_rank. split.
  - intros (Hl & Hg & [ilen Hi] & [olen Ho]).
    apply length_vector_squeezed in Hi as [-> Hi].
    apply length_vector_squeezed in Ho as [-> Ho]. tauto.
  - intros (Hl & Hg & Hi & Ho).
    repeat split; try assumption; eexists; apply squeezed_length_vector;
      eassumption.
Qed.

(** ** The CTC loss *)

(** The two outcomes of the assertions in a call of [ctc_lambda_loss]. *)
Lemma ctc_lambda_loss_call_cases `{tf : TensorFlow}
    `{checks : TensorFlowChecks} logits labels input_length label_length
    blank_index st :
  (ctc_ranks_ok logits labels input_length label_length /\
   ctc_lambda_loss_call logits labels input_length label_length blank_index
                        st
   = (tf_nn_ctc_loss_v2_call labels logits (squeezed_length label_length)
        (squeezed_length input_length) false blank_index, st)) \/
  (~ ctc_ranks_ok logits labels input_length label_length /\
   ctc_lambda_loss_call logits labels input_length label_length blank_index
                        st
   = (Raise InvalidArgumentError, st)).
Proof.
  unfold ctc_lambda_loss_call, ctc_ranks_ok.
  fold (squeezed_length input_length). fold (squeezed_length label_length).
  unfold mbind, mret, Graph_bind, Graph_ret, graph_op. cbn beta iota.
  destruct (Nat.eq_dec (tf_rank labels) 2%nat) as [H1|H1];
    [rewrite (tf_assert_rank_ok _ _ H1)
    |rewrite (tf_assert_rank_raise _ _ H1); right; split; [tauto|reflexivity]].
  destruct (Nat.eq_dec (tf_rank logits) 3%nat) as [H2|H2];
    [rewrite (tf_assert_rank_ok _ _ H2)
    |rewrite (tf_assert_rank_raise _ _ H2); right; split; [tauto|reflexivity]].
  destruct (Nat.eq_dec (tf_rank (squeezed_length input_length)) 1%nat) as [H3|H3];
    [rewrite (tf_assert_rank_ok _ _ H3)
    |rewrite (tf_assert_rank_raise _ _ H3); right; split; [tauto|reflexivity]].
  destruct (Nat.eq_dec (tf_rank (squeezed_length label_length)) 1%nat) as [H4|H4];
    [rewrite (tf_assert_rank_ok _ _ H4)
    |rewrite (tf_assert_rank_raise _ _ H4); right; split; [tauto|reflexivity]].
  left. split; [tauto|].
  now destruct (tf_nn_ctc_loss_v2_call _ _ _ _ _ _).
Qed.



(** C10, as claimed, fails: labels of shape (3, 2), logits of shape
    (2, 2, 3) and lengths of shape (2, 1) meet every rank precondition, and
    the call raises all the same, inside the operator, which finds a batch
    of three labels against a batch of two logits. No loss is produced. *)
Lemma ctc_lambda_loss_operator_raises :
  ctc_preconditions ex_seq_logits ex_three_labels ex_seq_length
                    ex_seq_length /\
  exists e,
    ctc_lambda_loss_call (tf := reference_tf) (checks := reference_checks)
      ex_seq_logits ex_three_labels ex_seq_length ex_seq_length 0
      empty_store
    = (Raise e, empty_store).
Proof.
  split.
  - assert (Hvec : length_vector ex_seq_length ex_vec_length).
    { right. split; [discriminate|]. exists 2%nat. split; reflexivity. }
    unfold ctc_preconditions. repeat split; eauto.
  - exists InvalidArgumentError. reflexivity.
Qed.

(** C10, amended. When a rank precondition is violated (labels of rank 2,
    logits of rank 3, each length tensor standing for a vector),
    [ctc_lambda_loss] raises at its assertions, whatever the operator would
    accept. When they all hold, the call is the call of the CTC operator on
    the labels, the logits and the two length vectors: it returns the
    operator's loss when the operator accepts its arguments, and raises the
    operator's error when it does not. The graph state is never touched. *)
Theorem ctc_lambda_loss_raises_iff `{tf : TensorFlow}
    `{checks : TensorFlowChecks} logits labels input_length label_length
    blank_index st :
  (~ ctc_preconditions logits labels input_length label_length ->
   exists e,
     ctc_lambda_loss_call logits labels input_length label_length
                          blank_index st
     = (Raise e, st)) /\
  (forall ilen olen,
     length (shape labels) = 2%nat -> length (shape logits) = 3%nat ->
     length_vector input_length ilen -> length_vector label_length olen ->
     ctc_lambda_loss_call logits labels input_length label_length
                          blank_index st
     = match ctc_loss_v2_check labels logits olen ilen with
       | Ok _ =>
           (Ok (tf_nn_ctc_loss_v2 labels logits olen ilen false
                                  blank_index), st)
       | Raise e => (Raise e, st)
       end).
Proof.
  destruct (ctc_lambda_loss_call_cases logits labels input_length
              label_length blank_index st) as [[Hok ->]|[Hno ->]].
  - split.
    + intros Hpre. exfalso. apply Hpre. now apply ctc_preconditions_ranks.
    + intros ilen olen _ _ Hi Ho.
      apply length_vector_squeezed in Hi as [-> _].
      apply length_vector_squeezed in Ho as [-> _].
      unfold tf_nn_ctc_loss_v2_call, mbind, Result_bind.
      now destruct (ctc_loss_v2_check _ _ _ _).
  - split.
    + intros _. now exists InvalidArgumentError.
    + intros ilen olen Hl Hg Hi Ho. exfalso. apply Hno.
      apply ctc_preconditions_ranks. unfold ctc_preconditions. repeat split; eauto.
Qed.

Lemma ctc_lambda_loss_raises_iff_witness :
  (~ ctc_preconditions ex_one_logits ex_one_labels ex_one_length
                       ex_one_length /\
   exists e,
     ctc_lambda_loss_call (tf := reference_tf) (checks := reference_checks)
       ex_one_logits ex_one_labels ex_one_length ex_one_length 0 empty_store
     = (Raise e, empty_store)) /\
  (length_vector ex_seq_length ex_vec_length /\
   ctc_lambda_loss_call (tf := reference_tf) (checks := reference_checks)
     ex_seq_logits ex_seq_labels ex_seq_length ex_seq_length 0 empty_store
   = (Ok (tf_nn_ctc_loss_v2 (TensorFlow := reference_tf) ex_seq_labels
            ex_seq_logits ex_vec_length ex_vec_length false 0),
      empty_store)).
Proof.
  assert (Hone : ~ ctc_preconditions ex_one_logits ex_one_labels
                                     ex_one_length ex_one_length).
  { intros (_ & _ & [v Hv] & _).
    destruct Hv as [[Hrank _]|[_ [n [Hfilter _]]]]; discriminate. }
  assert (Hvec : length_vector ex_seq_length ex_vec_length).
  { right. split; [discriminate|]. exists 2%nat. split; reflexivity. }
  split; (split; [assumption|]).
  - exact (proj1 (ctc_lambda_loss_raises_iff (tf := reference_tf)
                    (checks := reference_checks) ex_one_logits ex_one_labels
                    ex_one_length ex_one_length 0 empty_store) Hone).
  - exact (proj2 (ctc_lambda_loss_raises_iff (tf := reference_tf)
                    (checks := reference_checks) ex_seq_logits ex_seq_labels
                    ex_seq_length ex_seq_length 0 empty_store)
             ex_vec_length ex_vec_length eq_refl eq_refl Hvec Hvec).
Defined.

(** A call that meets the preconditions and that the operator accepts. *)
Example ctc_lambda_loss_call_accepted :
  ctc_lambda_loss_call (tf := reference_tf) (checks := reference_checks)
    ex_seq_logits ex_seq_labels ex_seq_length ex_seq_length 0 empty_store
  = (Ok (zeros [2%nat]), empty_store).
Proof. reflexivity. Qed.

(** ** The cross-entropy *)






(** ** Shapes of the results of the calls *)



(** ** The graph state *)

Lemma normalized_last_dim (embedding : Tensor R) batch dim :
  shape embedding = [batch; dim] ->
  last_dim (tf_div embedding (tf_norm_axis1 embedding)) = dim.
Proof.
  intros He. rewrite normalize_rows. unfold last_dim, tabulate2, dim1.
  now rewrite He.
Qed.

(** Without supplied weights, [arcface_loss] on a (batch, dim) embedding is
    the lookup or creation of arcface_loss/weights of shape (dim, out_num)
    followed by the call with the variable as weights. *)
Lemma arcface_loss_unsupplied `{tf : TensorFlow} embedding labels out_num s m
    limit_to_pi batch dim st :
  shape embedding = [batch; dim] ->
  arcface_loss embedding labels out_num None s m limit_to_pi st
  = (v ← tf_get_variable arcface_weights_name [dim; out_num]
                         xavier_initializer;
     arcface_loss embedding labels out_num (Some v) s m limit_to_pi) st.
Proof.
  intros He. rewrite arcface_loss_variable.
  rewrite (normalized_last_dim embedding batch dim He).
  reflexivity.
Qed.




(** * ArcFace, from the data of its inputs *)

(** ** The formula *)








(** ** The graph in float32 *)



(** * ArcFace and the graph state *)

(** Whatever its arguments, [arcface_loss] keeps the reuse flag and the
    collection LOSSES, leaves every variable other than arcface_loss/weights
    as it was, and never overwrites an existing arcface_loss/weights. *)
Theorem arcface_loss_store_frame `{tf : TensorFlow} embedding labels out_num
    weights s m limit_to_pi st :
  let r := arcface_loss embedding labels out_num weights s m limit_to_pi st in
  vs_reuse r.2 = vs_reuse st /\
  vs_losses r.2 = vs_losses st /\
  (forall name, name <> arcface_weights_name ->
     vs_vars r.2 !! name = vs_vars st !! name) /\
  (forall v, vs_vars st !! arcface_weights_name = Some v -> r.2 = st).
Proof.
  intros r. subst r. destruct weights as [w|].
  - destruct (arcface_loss_supplied_ok embedding labels out_num w s m
                limit_to_pi) as [output ->].
    simpl. repeat split.
  - rewrite arcface_loss_variable. fold arcface_weights_name.
    unfold tf_get_variable.
    destruct (vs_vars st !! arcface_weights_name) as [v|] eqn:Hlook.
    + assert (Hsame : forall r : Result (Tensor R),
                vs_reuse (r, st).2 = vs_reuse st /\
                vs_losses (r, st).2 = vs_losses st /\
                (forall name, name <> arcface_weights_name ->
                   vs_vars (r, st).2 !! name = vs_vars st !! name) /\
                (forall v' : Tensor R, Some v = Some v' -> (r, st).2 = st))
        by (intros r; simpl; repeat split).
      destruct (vs_reuse st); [apply Hsame| |];
        (destruct (decide _); [|apply Hsame];
         destruct (arcface_loss_supplied_ok embedding labels out_num v s m
                     limit_to_pi) as [output ->];
         apply Hsame).
    + destruct (arcface_loss_supplied_ok embedding labels out_num
                  (xavier_initializer
                     [last_dim (tf_div embedding (tf_norm_axis1 embedding));
                      out_num]) s m limit_to_pi) as [output Hrun].
      destruct (vs_reuse st) eqn:Hreuse.
      * rewrite Hrun. simpl. split; [reflexivity|]. split; [reflexivity|].
        split; [|intros; congruence].
        intros name Hne. now rewrite lookup_insert_ne by congruence.
      * simpl. repeat split; intros; (assumption || reflexivity || congruence).
      * rewrite Hrun. simpl. split; [reflexivity|]. split; [reflexivity|].
        split; [|intros; congruence].
        intros name Hne. now rewrite lookup_insert_ne by congruence.
Qed.

(** Two calls without weights, on a (batch, dim) embedding and a vector of
    batch labels, with dim and out_num positive, from a scope that has no
    arcface_loss/weights yet, with an initializer that returns the
    (dim, out_num) shape asked of it. Under
    AUTO_REUSE the first call creates the variable, of shape
    (dim, out_num), and the second returns the same output without changing
    the state again; with reuse off the first call succeeds likewise and
    the second raises ValueError; with reuse demanded the first call
    already raises ValueError. *)
Theorem arcface_loss_called_twice `{tf : TensorFlow} embedding labels out_num
    s m limit_to_pi st batch dim :
  shape embedding = [batch; dim] ->
  shape labels = [batch] -> length (data labels) = batch ->
  (0 < dim)%nat -> (0 < out_num)%nat ->
  shape (xavier_initializer [dim; out_num]) = [dim; out_num] ->
  vs_vars st !! arcface_weights_name = None ->
  let call := arcface_loss embedding labels out_num None s m limit_to_pi in
  let st1 := mkStore (<[arcface_weights_name
                        := xavier_initializer [dim; out_num]]> (vs_vars st))
                     (vs_reuse st) (vs_losses st) in
  match vs_reuse st with
  | AutoReuse =>
      exists output, call st = (Ok output, st1) /\
                     call st1 = (Ok output, st1) /\
                     shape output = [batch; out_num]
  | ReuseFalse =>
      (exists output, call st = (Ok output, st1) /\
                      shape output = [batch; out_num]) /\
      call st1 = (Raise ValueError, st1)
  | ReuseTrue => call st = (Raise ValueError, st)
  end.
Proof.
  intros He Hshape Hlen _ _ Hinit Hfresh call st1. subst call.
  set (w := xavier_initializer [dim; out_num]) in *.
  assert (Hcall : forall st0,
            arcface_loss embedding labels out_num None s m limit_to_pi st0
            = (v ← tf_get_variable arcface_weights_name [dim; out_num]
                                   xavier_initializer;
               arcface_loss embedding labels out_num (Some v) s m
                            limit_to_pi) st0)
    by (intros st0; now apply (arcface_loss_unsupplied _ _ _ _ _ _ batch)).
  destruct (arcface_loss_shape embedding labels out_num w s m limit_to_pi
              st1 batch dim He Hinit Hshape Hlen) as [output [Hrun Hout]].
  assert (Hfirst : vs_reuse st <> ReuseTrue ->
            arcface_loss embedding labels out_num None s m limit_to_pi st
            = (Ok output, st1)).
  { intros Hmode. rewrite Hcall. unfold mbind, Graph_bind, tf_get_variable.
    rewrite Hfresh.
    destruct (vs_reuse st) eqn:Hreuse; [| contradiction |];
      fold w; exact Hrun. }
  assert (Hlook : vs_vars st1 !! arcface_weights_name = Some w)
    by (subst st1; cbn [vs_vars]; apply lookup_insert_eq).
  destruct (vs_reuse st) eqn:Hreuse.
  - split; [exists output; split; [now apply Hfirst | exact Hout]|].
    rewrite Hcall. unfold mbind, Graph_bind, tf_get_variable.
    rewrite Hlook. subst st1. cbn [vs_reuse]. reflexivity.
  - rewrite Hcall. unfold mbind, Graph_bind, tf_get_variable.
    now rewrite Hfresh, Hreuse.
  - exists output. split; [now apply Hfirst|]. split; [|exact Hout].
    rewrite Hcall. unfold mbind, Graph_bind, tf_get_variable.
    rewrite Hlook.
    replace (vs_reuse st1) with AutoReuse by (subst st1; reflexivity).
    destruct (decide (shape w = [dim; out_num])) as [_|Hne];
      [exact Hrun | contradiction].
Qed.

Lemma arcface_loss_called_twice_witness :
  let call := arcface_loss (tf := reference_tf) ex_embedding ex_labels 2 None
                           64 (1 / 2) true in
  let st1 := mkStore (<[arcface_weights_name := zeros [1; 2]%nat]> ∅)
                     ReuseFalse [] in
  vs_vars empty_store !! arcface_weights_name = None /\
  (exists output, call empty_store = (Ok output, st1) /\
                  shape output = [1; 2]%nat) /\
  call st1 = (Raise ValueError, st1).
Proof.
  intros call st1. split; [apply lookup_empty|].
  exact (arcface_loss_called_twice (tf := reference_tf) ex_embedding
           ex_labels 2 64 (1 / 2) true empty_store 1 1
           eq_refl eq_refl eq_refl (le_n 1) (le_S 1 1 (le_n 1)) eq_refl
           (lookup_empty _)).
Defined.
